(** * ladybug_rhino: translation of Ladybug legends and compasses into
      Rhino primitives, and the unit configuration

    Shallow embedding of [ladybug_rhino/fromobjects.py] and
    [ladybug_rhino/config.py].

    Conventions of the embedding:
    - the numbers of [fromobjects.py] are those of a [Number] system: a
      type with the [/] that Python applies to its values; the systems
      given are binary64 floats, integers under floor division and exact
      rationals;
    - the decimal constants of [config.py] are taken exactly, as
      rationals ([Q]);
    - a Python [str] is a [string] of ASCII characters;
    - a Python list is a [list]; [result.append(x)] inside a [for] loop
      is state passing through [fold_left];
    - geometry that the translated functions never look into
      ([Mesh3D], [Arc2D], [LineSegment2D]) is kept abstract. *)

From Stdlib Require Import List String Ascii Bool Arith ZArith QArith Lia.
From Stdlib Require Import DecimalString SpecFloat.
Import ListNotations.

Local Open Scope string_scope.
Local Open Scope list_scope.

(** ** The part of the Python run time that the module relies on *)

Module Py.

(** The decimal constants of [config.py], taken exactly. *)
Definition number := Q.

(** A kind of Python number: how an integer literal reads in it, and the
    [/] of two of its values. *)
Class Number (number : Type) : Type := {
  of_int : Z -> number;
  div : number -> number -> number
}.

(** [float]: IEEE 754 binary64, every operation rounded to nearest, ties
    to even.  (A zero divisor gives an infinity or a NaN here, where
    Python raises; the divisors below are 20 and 2.) *)
#[export] Instance binary64 : Number spec_float := {|
  of_int := fun i => binary_normalize 53 1024 i 0 false;
  div := SFdiv 53 1024
|}.

(** [int] where [/] is floor division, as it is for two integers when
    true division is not in force. *)
#[export] Instance floor_int : Number Z := {|
  of_int := fun i => i;
  div := Z.div
|}.

(** Exact rational arithmetic. *)
#[export] Instance exact : Number Q := {|
  of_int := inject_Z;
  div := Qdiv
|}.

(** [zip(a, b)]: pairs by index and stops at the shorter argument. *)
Fixpoint zip {A B : Type} (a : list A) (b : list B) : list (A * B) :=
  match a, b with
  | x :: a', y :: b' => (x, y) :: zip a' b'
  | _, _ => []
  end.

(** [result.append(x)] as a function of the list before the call. *)
Definition append {A : Type} (result : list A) (x : A) : list A :=
  result ++ [x].

(** [for x in xs: result = body(result, x)]. *)
Definition for_in {A S : Type} (xs : list A) (body : S -> A -> S)
                  (result : S) : S :=
  fold_left body xs result.

(** Character classes of ASCII text. *)
Definition islower (c : ascii) : bool :=
  let n := nat_of_ascii c in ((97 <=? n) && (n <=? 122))%nat.

Definition isupper (c : ascii) : bool :=
  let n := nat_of_ascii c in ((65 <=? n) && (n <=? 90))%nat.

Definition toupper (c : ascii) : ascii :=
  if islower c then ascii_of_nat (nat_of_ascii c - 32)%nat else c.

Definition tolower (c : ascii) : ascii :=
  if isupper c then ascii_of_nat (nat_of_ascii c + 32)%nat else c.

(** [s.title()]: the first cased character of every run of cased
    characters is upper case, the others are lower case; an uncased
    character passes unchanged and ends the run. *)
Fixpoint title_from (previous_is_cased : bool) (s : string) : string :=
  match s with
  | EmptyString => EmptyString
  | String c s' =>
      if islower c then
        String (if previous_is_cased then c else toupper c)
               (title_from true s')
      else if isupper c then
        String (if previous_is_cased then tolower c else c)
               (title_from true s')
      else String c (title_from false s')
  end.

Definition title (s : string) : string := title_from false s.

(** [s.lower()], used to say that two strings differ in casing only. *)
Fixpoint lower (s : string) : string :=
  match s with
  | EmptyString => EmptyString
  | String c s' => String (tolower c) (lower s')
  end.

(** [s.isascii()] *)
Fixpoint isascii (s : string) : bool :=
  match s with
  | EmptyString => true
  | String c s' => (nat_of_ascii c <? 128)%nat && isascii s'
  end.

(** [s.split(sep)] for a separator of one character: never empty. *)
Fixpoint split (sep : ascii) (s : string) : list string :=
  match s with
  | EmptyString => [EmptyString]
  | String c s' =>
      if Ascii.eqb c sep then EmptyString :: split sep s'
      else match split sep s' with
           | seg :: rest => String c seg :: rest
           | [] => [String c EmptyString]
           end
  end.

(** [l[-1]] on a list of strings. *)
Definition last_item (l : list string) : string := List.last l EmptyString.

(** What a call does: it returns a value or raises. *)
Inductive exception : Type :=
| ValueError (message : string).

Inductive outcome (A : Type) : Type :=
| Returns (value : A)
| Raises (e : exception).

Arguments Returns {A} value.
Arguments Raises {A} e.

Definition raises {A : Type} (o : outcome A) : Prop :=
  exists e, o = Raises e.

End Py.

Import Py.

(** ** [ladybug_rhino/fromobjects.py] *)

Module FromObjects.

Set Implicit Arguments.
Set Contextual Implicit.

Section Translation.

(** The numbers of the objects at hand. *)
Variable number : Type.
Context {arithmetic : Number number}.

(** Points and planes of [ladybug_geometry], as far as the translation
    reads and builds them. *)
Record Point2D : Type := { x : number; y : number }.

Inductive Point3D : Type :=
| Point3D_xyz (px py pz : number).

Record Plane : Type := { n : Point3D; o : Point3D }.

(** [Plane(o=origin)]: the normal keeps its default, the world Z axis. *)
Definition Plane_o (origin : Point3D) : Plane :=
  {| n := Point3D_xyz (of_int 0) (of_int 0) (of_int 1); o := origin |}.

(** Geometry the translation only passes on. *)
Variables Mesh3D Arc2D LineSegment2D : Type.

(** The built-in [str] on numbers. *)
Variable str : number -> string.

(** Modelled from the spec: the constructors of [fromgeometry.py] and
    [text.py], which are not part of the sources at hand.  A primitive
    records which constructor made it and from which arguments; a
    justification argument that the call leaves out is [None]. *)
Inductive Primitive : Type :=
| Mesh (mesh : Mesh3D)
| Arc (arc : Arc2D) (z : number)
| LineSegment (line : LineSegment2D) (z : number)
| Label (text : string) (plane : Plane) (height : number) (font : string)
        (horizontal_alignment vertical_alignment : option Z).

Definition from_mesh3d (mesh : Mesh3D) : Primitive := Mesh mesh.
Definition from_arc2d (arc : Arc2D) (z : number) : Primitive := Arc arc z.
Definition from_linesegment2d (line : LineSegment2D) (z : number)
  : Primitive := LineSegment line z.
Definition text_objects (text : string) (plane : Plane) (height : number)
    (font : string) (horizontal_alignment vertical_alignment : option Z)
  : Primitive :=
  Label text plane height font horizontal_alignment vertical_alignment.

(** The Ladybug objects, with the attributes the translation reads. *)
Record LegendParameters : Type := {
  text_height : number;
  font : string;
  continuous_legend : bool;
  vertical : bool
}.

Record Legend : Type := {
  legend_parameters : LegendParameters;
  segment_mesh : Mesh3D;
  title : string;
  title_location : Plane;
  segment_text : list string;
  segment_text_location : list Plane
}.

Record Compass : Type := {
  radius : number;
  all_boundary_circles : list Arc2D;
  major_azimuth_ticks : list LineSegment2D;
  MAJOR_TEXT : list string;
  major_azimuth_points : list Point2D;
  minor_azimuth_ticks : list LineSegment2D;
  MINOR_TEXT : list string;
  minor_azimuth_points : list Point2D;
  ALTITUDES : list number;
  orthographic_altitude_circles : list Arc2D;
  orthographic_altitude_points : list Point2D;
  stereographic_altitude_circles : list Arc2D;
  stereographic_altitude_points : list Point2D;
  ticks_from_angles : list number -> list LineSegment2D;
  label_points_from_angles : list number -> list Point2D
}.

(** [legend_objects(legend)] *)
Definition legend_objects (legend : Legend) : list Primitive :=
  let _height := text_height (legend_parameters legend) in
  let _font := font (legend_parameters legend) in
  let legend_mesh := from_mesh3d (segment_mesh legend) in
  let legend_title :=
    text_objects (title legend) (title_location legend) _height _font
                 None None in
  let legend_text :=
    if negb (continuous_legend (legend_parameters legend)) then
      map (fun '(txt, loc) =>
             text_objects txt loc _height _font (Some 0%Z) (Some 5%Z))
          (zip (segment_text legend) (segment_text_location legend))
    else if vertical (legend_parameters legend) then
      map (fun '(txt, loc) =>
             text_objects txt loc _height _font (Some 0%Z) (Some 3%Z))
          (zip (segment_text legend) (segment_text_location legend))
    else
      map (fun '(txt, loc) =>
             text_objects txt loc _height _font (Some 1%Z) (Some 5%Z))
          (zip (segment_text legend) (segment_text_location legend)) in
  [legend_mesh] ++ [legend_title] ++ legend_text.

(** The two label heights of [compass_objects], lines 87 and 88. *)
Definition maj_txt (compass : Compass) : number :=
  div (radius compass) (of_int 20).
Definition min_txt (compass : Compass) : number :=
  div (maj_txt compass) (of_int 2).

(** [compass_objects(compass, z, custom_angles, projection, font)] *)
Definition compass_objects (compass : Compass) (z : number)
    (custom_angles : option (list number)) (projection : option string)
    (font : string) : list Primitive :=
  let maj_txt := maj_txt compass in
  let min_txt := min_txt compass in
  let result := [] in
  let result :=
    for_in (all_boundary_circles compass)
      (fun result circle => append result (from_arc2d circle z)) result in
  let result :=
    match custom_angles with
    | None =>
        let result :=
          for_in (major_azimuth_ticks compass)
            (fun result line => append result (from_linesegment2d line z))
            result in
        let result :=
          for_in (zip (MAJOR_TEXT compass) (major_azimuth_points compass))
            (fun result '(txt, pt) =>
               append result
                 (text_objects txt (Plane_o (Point3D_xyz (x pt) (y pt) z))
                               maj_txt font (Some 1%Z) (Some 3%Z)))
            result in
        let result :=
          for_in (minor_azimuth_ticks compass)
            (fun result line => append result (from_linesegment2d line z))
            result in
        for_in (zip (MINOR_TEXT compass) (minor_azimuth_points compass))
          (fun result '(txt, pt) =>
             append result
               (text_objects txt (Plane_o (Point3D_xyz (x pt) (y pt) z))
                             min_txt font (Some 1%Z) (Some 3%Z)))
          result
    | Some custom_angles =>
        let result :=
          for_in (ticks_from_angles compass custom_angles)
            (fun result line => append result (from_linesegment2d line z))
            result in
        for_in (zip custom_angles
                    (label_points_from_angles compass custom_angles))
          (fun result '(txt, pt) =>
             append result
               (text_objects (str txt)
                             (Plane_o (Point3D_xyz (x pt) (y pt) z))
                             maj_txt font (Some 1%Z) (Some 3%Z)))
          result
    end in
  let result :=
    match projection with
    | Some projection =>
        if String.eqb (Py.title projection) "Orthographic" then
          let result :=
            for_in (orthographic_altitude_circles compass)
              (fun result circle => append result (from_arc2d circle z))
              result in
          for_in (zip (ALTITUDES compass)
                      (orthographic_altitude_points compass))
            (fun result '(txt, pt) =>
               append result
                 (text_objects (str txt)
                               (Plane_o (Point3D_xyz (x pt) (y pt) z))
                               min_txt font (Some 1%Z) (Some 0%Z)))
            result
        else if String.eqb (Py.title projection) "Stereographic" then
          let result :=
            for_in (stereographic_altitude_circles compass)
              (fun result circle => append result (from_arc2d circle z))
              result in
          for_in (zip (ALTITUDES compass)
                      (stereographic_altitude_points compass))
            (fun result '(txt, pt) =>
               append result
                 (text_objects (str txt)
                               (Plane_o (Point3D_xyz (x pt) (y pt) z))
                               min_txt font (Some 1%Z) (Some 0%Z)))
            result
        else result
    | None => result
    end in
  result.

End Translation.

End FromObjects.

(** ** [ladybug_rhino/config.py] *)

Module Config.

(** What [import scriptcontext] meets: the import fails, or there is a
    document, of which [str(scriptcontext.doc.ModelUnitSystem)] is read. *)
Inductive host : Type :=
| ImportError
| scriptcontext (ModelUnitSystem : string).

Definition newline : string := String (ascii_of_nat 10) EmptyString.

(** [conversion_factor()] *)
Definition conversion_factor (h : host) : outcome number :=
  let units :=
    match h with
    | scriptcontext ModelUnitSystem =>
        last_item (split "." ModelUnitSystem)
    | ImportError => "Meters"
    end in
  if String.eqb units "Meters" then Returns 1.0
  else if String.eqb units "Millimeters" then Returns 0.001
  else if String.eqb units "Feet" then Returns 0.305
  else if String.eqb units "Inches" then Returns 0.0254
  else if String.eqb units "Centimeters" then Returns 0.01
  else
    Raises (ValueError
      ("You're kidding me! What units are you using?" ++ units ++ "?"
       ++ newline
       ++ "Please use Meters, Millimeters, Centimeters, Feet or Inches.")).

(** [units_system()] *)
Definition units_system (h : host) : string :=
  match h with
  | scriptcontext ModelUnitSystem => last_item (split "." ModelUnitSystem)
  | ImportError => "Meters"
  end.

End Config.

(** ** [ladybug_rhino/versioning/legacy.py] *)

Module Legacy.

(** A dictionary display [{k1: v1, k2: v2, ...}] is kept as its entries in
    the order of the source; a value is the name of the component that
    replaces the legacy one, or [None]. *)
Definition display : Type := list (string * option string).

(** [d[key]] for the dictionary built from a display: entries are stored
    from left to right, so a later entry of the same key replaces an
    earlier one; [None] stands for [KeyError]. *)
Fixpoint getitem (d : display) (key : string) : option (option string) :=
  match d with
  | [] => None
  | (k, v) :: rest =>
      match getitem rest key with
      | Some v' => Some v'
      | None => if String.eqb k key then Some v else None
      end
  end.

(** [key in d] *)
Definition contains (d : display) (key : string) : bool :=
  match getitem d key with
  | Some _ => true
  | None => false
  end.

(** [d[fst entry] == snd entry], false when the key is missing. *)
Definition binds (d : display) (entry : string * option string) : bool :=
  match getitem d (fst entry), snd entry with
  | Some (Some v), Some v' => String.eqb v v'
  | Some None, None => true
  | _, _ => false
  end.

(** No string occurs twice in the list. *)
Fixpoint distinct (keys : list string) : bool :=
  match keys with
  | [] => true
  | key :: rest =>
      negb (existsb (String.eqb key) rest) && distinct rest
  end.

(** [s.startswith(prefix)] *)
Definition startswith (s prefix : string) : bool := String.prefix prefix s.

Definition LADYBUG_MAP : display :=
  [ ("Ladybug_Render View", Some "LB Capture View");
    ("Ladybug_Import CEC Photovoltaics Module",
     Some "HB Photovoltaic Properties");
    ("Ladybug_Outdoor Comfort Calculator", Some "LB UTCI Comfort");
    ("Ladybug_Real Time Radiation Analysis",
     Some "LB Real Time Incident Radiation");
    ("Ladybug_Draft Discomfort", None);
    ("Ladybug_Simplified Photovoltaics Module",
     Some "HB Photovoltaic Properties");
    ("Ladybug_PMV Comfort Parameters", Some "LB PMV Comfort Parameters");
    ("Ladybug_Photovoltaics Performance Metrics",
     Some "HB Generation Loads");
    ("Ladybug_Solar Water Heating Surface", None);
    ("Ladybug_Legend Parameters", Some "LB Legend Parameters");
    ("Ladybug_MRT Calculator", Some "Multiplication");
    ("Ladybug_Bioclimatic Chart", Some "LB Psychrometric Chart");
    ("Ladybug_PV SWH System Size", None);
    ("Ladybug_Design Day Sky Model", Some "LB Cumulative Sky Matrix");
    ("Ladybug_Mesh Threshold Selector", Some "LB Mesh Threshold Selector");
    ("Ladybug_Shading Mask_II", Some "LB Sky Mask");
    ("Ladybug_Psychrometric Chart", Some "LB Psychrometric Chart");
    ("Ladybug_Import Ground Temp", None);
    ("Ladybug_Import Sandia Photovoltaics Module",
     Some "HB Photovoltaic Properties");
    ("Ladybug_Wind Boundary Profile", Some "LB Wind Profile");
    ("Ladybug_Wind Speed Calculator", Some "LB Wind Speed");
    ("Ladybug_Passive Strategy List", Some "LB Passive Strategies");
    ("Ladybug_SunriseSunset", Some "LB Day Solar Information");
    ("Ladybug_CDD_HDD", Some "LB Degree Days");
    ("Ladybug_Pedestrian Wind Comfort", None);
    ("Ladybug_PMV Comfort Calculator", Some "LB PMV Comfort");
    ("Ladybug_Ladybug", None);
    ("Ladybug_SolarFan", None);
    ("Ladybug_Import epw", Some "LB Import EPW");
    ("Ladybug_View From Sun", Some "LB View From Sun");
    ("Ladybug_Separate By Normal", Some "Evaluate Surface");
    ("Ladybug_GenCumulativeSkyMtx", Some "LB Cumulative Sky Matrix");
    ("Ladybug_Shading Parameters List", None);
    ("Ladybug_Radiation Calla Dome", Some "LB Radiation Dome");
    ("Ladybug_F2C", Some "LB To SI");
    ("Ladybug_Analysis Period", Some "LB Analysis Period");
    ("Ladybug_Average Data", Some "LB Time Interval Operation");
    ("Ladybug_Branch Data", Some "Partition List");
    ("Ladybug_Surface Hourly Solar", Some "LB Directional Solar Irradiance");
    ("Ladybug_Capture View", Some "LB Capture View");
    ("Ladybug_Set Rhino Sun", Some "LB Set Rhino Sun");
    ("Ladybug_Open EPW And STAT Weather Files", Some "LB Download Weather");
    ("Ladybug_Surface View Analysis", Some "LB View Factors");
    ("Ladybug_fly", None);
    ("Ladybug_SolarEnvelopeBasic", Some "LB Solar Envelope");
    ("Ladybug_Cone Of Vision", None);
    ("Ladybug_Location Finder", Some "LB Construct Location");
    ("Ladybug_Import Location", Some "LB Import Location");
    ("Ladybug_Cold Water Temperature", None);
    ("Ladybug_Shading Mask", Some "LB Sky Mask");
    ("Ladybug_Line Chart", Some "LB Monthly Chart");
    ("Ladybug_Create Legend", Some "LB Create Legend");
    ("Ladybug_Update File", Some "LB Sync Grasshopper File");
    ("Ladybug_Beaufort Ranges", None);
    ("Ladybug_DOY_HOY", Some "LB Calculate HOY");
    ("Ladybug_Texture Maker", None);
    ("Ladybug_Generate Mesh", Some "LB Generate Point Grid");
    ("Ladybug_Import stat", Some "LB Import STAT");
    ("Ladybug_selectSkyMtx", None);
    ("Ladybug_Humidity Ratio Calculator", Some "LB Humidity Metrics");
    ("Ladybug_Sunlight Hours Analysis", Some "LB Direct Sun Hours");
    ("Ladybug_Clothing Function", Some "LB Clothing by Temperature");
    ("Ladybug_3D Chart", Some "LB Hourly Plot");
    ("Ladybug_L2G", Some "LB To IP");
    ("Ladybug_Mesh-To-Hatch", Some "LB Mesh to Hatch");
    ("Ladybug_Outdoor Solar Temperature Adjustor",
     Some "LB Outdoor Solar MRT");
    ("Ladybug_Wind Rose", Some "LB Wind Rose");
    ("Ladybug_Solar Water Heating System", None);
    ("Ladybug_Cfm2M3s", Some "LB To SI");
    ("Ladybug_Activities Met List", Some "LB Activities Met List");
    ("Ladybug_CombineSolarEnvelopes", None);
    ("Ladybug_Window Downdraft", None);
    ("Ladybug_Sun_Shades_Calculator", Some "LB Shade Benefit");
    ("Ladybug_Orient to Camera", Some "LB Orient to Camera");
    ("Ladybug_Export Ladybug", Some "LB Export UserObject");
    ("Ladybug_Monthly Bar Chart", Some "LB Monthly Chart");
    ("Ladybug_Comfort Shade Benefit Evaluator",
     Some "LB Thermal Shade Benefit");
    ("Ladybug_Create LB Header", Some "LB Construct Header");
    ("Ladybug_Construct Time", Some "LB Calculate HOY");
    ("Ladybug_uSI2uIP", Some "LB Unit Converter");
    ("Ladybug_ShadingDesigner", Some "LB Shade Benefit");
    ("Ladybug_Photovoltaics Surface", Some "HB Shade");
    ("Ladybug_Separate data", Some "LB Deconstruct Data");
    ("Ladybug_SolarFanBasic", None);
    ("Ladybug_Tilt And Orientation Factor", None);
    ("Ladybug_Wh2BTU", Some "LB To IP");
    ("Ladybug_Radiation Rose", Some "LB Radiation Rose");
    ("Ladybug_Bounce from Surface", Some "LB Surface Ray Tracing");
    ("Ladybug_Shadow Study", Some "LB Set Rhino Sun");
    ("Ladybug_Open STAT File", Some "File Path");
    ("Ladybug_SunPath", Some "LB SunPath");
    ("Ladybug_uIP2uSI", Some "LB Unit Converter");
    ("Ladybug_Passive Strategy Parameters",
     Some "LB Passive Strategy Parameters");
    ("Ladybug_Body Characteristics", Some "LB PET Body Parameters");
    ("Ladybug_BTUft2Whm", Some "LB To SI");
    ("Ladybug_Radiation Analysis", Some "LB Incident Radiation");
    ("Ladybug_Sunpath Shading", Some "HB Generation Loads");
    ("Ladybug_SolarEnvelope", Some "LB Solar Envelope");
    ("Ladybug_Clothing List", Some "Clothing List");
    ("Ladybug_True North", None);
    ("Ladybug_Search", None);
    ("Ladybug_Update Ladybug", Some "LB Versioner");
    ("Ladybug_Solar Water Heating Performance Metrics", None);
    ("Ladybug_WetBulbTemp", Some "LB Humidity Metrics");
    ("Ladybug_Adaptive Comfort Chart", Some "LB Adaptive Chart");
    ("Ladybug_Kmz Generator", None);
    ("Ladybug_View Analysis", Some "LB View Percent");
    ("Ladybug_Residential Hot Water", Some "HB Service Hot Water");
    ("Ladybug_North", Some "LB Compass");
    ("Ladybug_Forward Raytracing", Some "LB Surface Ray Tracing");
    ("Ladybug_Commercial Public Apartment Hot Water",
     Some "HB Service Hot Water");
    ("Ladybug_Set the View", None);
    ("Ladybug_DC to AC derate factor", Some "HB Electric Load Center");
    ("Ladybug_Thermal Comfort Indices", Some "LB PET Comfort");
    ("Ladybug_Countour Mesh", None);
    ("Ladybug_Solar Water Heating System Detailed",
     Some "HB Service Hot Water");
    ("Ladybug_Gradient Library", Some "LB Color Range");
    ("Ladybug_Steady State Surface Temperature", None);
    ("Ladybug_Construct Location", Some "LB Construct Location");
    ("Ladybug_Adaptive Comfort Parameters",
     Some "LB Adaptive Comfort Parameters");
    ("Ladybug_Decompose Location", Some "LB Deconstruct Location");
    ("Ladybug_view Rose", None);
    ("Ladybug_Orientation Study Parameters", None);
    ("Ladybug_rIP2rSI", Some "LB Unit Converter");
    ("Ladybug_Open EPW Weather File", Some "File Path");
    ("Ladybug_Terrain Generator", None);
    ("Ladybug_C2F", Some "LB To IP");
    ("Ladybug_ms2mph", Some "LB To IP");
    ("Ladybug_Radiant Asymmetry Discomfort", Some "LB Radiant Asymmetry");
    ("Ladybug_Adaptive Comfort Calculator", Some "LB Adaptive Comfort");
    ("Ladybug_lux2ft-cd", Some "LB Unit Converter");
    ("Ladybug_download EPW Weather File", Some "LB EPWmap");
    ("Ladybug_Day_Month_Hour", Some "LB HOY to DateTime");
    ("Ladybug_CDH_HDH", Some "LB Degree Days");
    ("Ladybug_Colored Sky Visualizer", None);
    ("Ladybug_BTU2Wh", Some "LB To SI");
    ("Ladybug_Sky Dome", Some "LB Sky Dome");
    ("Ladybug_Ankle Draft Discomfort", None);
    ("Ladybug_Recolor Mesh", Some "LB Spatial Heatmap");
    ("Ladybug_M3s2Cfm", Some "LB To IP");
    ("Ladybug_Comfort Mannequin", None);
    ("Ladybug_Whm2BTUft", Some "LB To IP") ].

Definition HONEYBEE_MAP : display :=
  [ ("Honeybee_Lookup Daylighting Folder", None);
    ("Honeybee_Set Zone Properties", Some "HB Set Multiplier");
    ("Honeybee EP context Surfaces", Some "HB Shade");
    ("Honeybee_IES Custom Lamp", None);
    ("Honeybee_PerimeterCoreZoning", Some "HB Rooms by Orientation");
    ("Honeybee_Generate Cumulative Sky", Some "HB Cumulative Radiation");
    ("Honeybee_Seasonal Schedule", Some "HB Seasonal Schedule");
    ("Honeybee_Radiance Trans Material By Color",
     Some "HB Translucent Modifier 3");
    ("Honeybee_Surface Data Based On Type", Some "HB Face Result by Type");
    ("Honeybee_Read EP HVAC Result", Some "HB Read Custom Result");
    ("Honeybee_Masses2Zones", Some "HB Room from Solid");
    ("Honeybee_IES Project", None);
    ("Honeybee_SplitBuildingMass2Floors", Some "DF Building from Solid");
    ("Honeybee_Create EP Plenum", Some "HB Plenum");
    ("Honeybee_infORventPerArea Calculator", Some "HB Apply Load Values");
    ("Honeybee_Ambient Resolution", Some "HB Ambient Resolution");
    ("Honeybee_Generate Test Points", Some "LB Generate Point Grid");
    ("Honeybee_Generate Standard CIE Sky", Some "HB CIE Standard Sky");
    ("Honeybee_Microclimate Map Analysis", None);
    ("Honeybee_Decompose Based On Boundary Condition",
     Some "HB Faces by BC");
    ("Honeybee_EnergyPlus Glass Material", Some "HB Glass Modifier");
    ("Honeybee_Set Radiance Materials", Some "HB Apply ModifierSet");
    ("Honeybee_Radiance Metal Material By Color",
     Some "HB Metal Modifier 3");
    ("Honeybee_Vertical Sky Component", Some "HB Sky View");
    ("Honeybee_AskMe", None);
    ("Honeybee_Set EP Zone Construction", Some "HB Apply ConstructionSet");
    ("Honeybee_EnergyPlus Construction", Some "HB Opaque Construction");
    ("Honeybee_Set EnergyPlus Zone Thresholds",
     Some "HB Apply Setpoint Values");
    ("Honeybee_IntersectMasses", Some "HB Intersect Solids");
    ("Honeybee_Generate Average Sky", Some "HB Custom Sky");
    ("Honeybee_Call from EP Construction Library",
     Some "HB Search Constructions");
    ("Honeybee_simple_Inverter", Some "HB Electric Load Center");
    ("Honeybee_Zone Attribute List", Some "HB Room Attributes");
    ("Honeybee_Constant Schedule", Some "HB Constant Schedule");
    ("Honeybee_R-Value With Air Films", Some "HB Deconstruct Construction");
    ("Honeybee_orientHBGlz", Some "HB Facade Parameters");
    ("Honeybee_Read DS Result for a point",
     Some "HB Annual Results to Data");
    ("Honeybee_Therm Material", None);
    ("Honeybee_Generate EP Output", Some "HB Simulation Output");
    ("Honeybee_Get Zone EnergyPlus Loads", Some "HB Color Room Attributes");
    ("Honeybee_Visualize Microclimate Map", Some "HB Visualize Thermal Map");
    ("Honeybee_Make Adiabatic By Type", Some "HB Adiabatic by Type");
    ("Honeybee_Annual Daylight Simulation", Some "HB Annual Daylight");
    ("Honeybee_Import WINDOW Glz System", Some "HB Window Construction");
    ("Honeybee_Surface Attribute List", Some "HB Face Attributes");
    ("Honeybee_PET Analysis Recipe", None);
    ("Honeybee_Therm Material to EnergyPlus Material", None);
    ("Honeybee_Read HVAC Sizing", Some "HB Read HVAC Sizing");
    ("Honeybee_OpenFileDirectory", Some "LB Open Directory");
    ("Honeybee_Radiance BSDF Material", Some "HB BSDF Modifier");
    ("Honeybee Lighting Density Calculator", None);
    ("Honeybee_AddEarthtube", Some "HB HeatCool HVAC");
    ("Honeybee_Set Loads And Schedules", Some "HB Apply ProgramType");
    ("Honeybee_IES Luminaire", None);
    ("Honeybee_Daily Schedule", Some "HB Gene Pool to Day Schedule");
    ("Honeybee_Custom Radiant Environment", None);
    ("Honeybee_Generator_PV", Some "HB Photovoltaic Properties");
    ("Honeybee_Separate conditioned and unconditioned zones",
     Some "HB Rooms by Attribute");
    ("Honeybee_addHBGlz", Some "HB Add Subface");
    ("Honeybee_PMV Comfort Analysis Recipe", Some "HB PMV Comfort Map");
    ("Honeybee_Read RAD Result", None);
    ("Honeybee_Radiance Metal Material", Some "HB Metal Modifier");
    ("Honeybee_Convert IMG", Some "HB HDR to GIF");
    ("Honeybee_Get or Set HB Object Name", Some "HB Set Identifier");
    ("Honeybee_Find Non-Convex", None);
    ("Honeybee_Radiance Opaque Material", Some "HB Opaque Modifier");
    ("Honeybee_generationsystem", Some "HB Electric Load Center");
    ("Honeybee_Generate Sky With Certain Illuminance level",
     Some "HB Certain Illuminance");
    ("Honeybee_Set EP Surface Construction",
     Some "HB Apply Opaque Construction");
    ("Honeybee_DSParameters", Some "HB Radiance Parameter");
    ("Honeybee_Decompose EnergyPlus Schedule",
     Some "HB Deconstruct Schedule");
    ("Honeybee_ Run Energy Simulation", Some "HB Annual Loads");
    ("Honeybee_MSH2RAD", Some "HB Shade");
    ("Honeybee_Read_generation_system_results",
     Some "HB Read Generation Result");
    ("Honeybee_Search EP Construction", Some "HB Search Constructions");
    ("Honeybee_Mirror Honeybee", Some "HB Mirror Modifier");
    ("Honeybee_Outdoor Comfort Analysis Recipe", Some "HB UTCI Comfort Map");
    ("Honeybee_Dump Honeybee Objects", Some "HB Dump Objects");
    ("Honeybee_Re-run OSM", Some "HB Run OSM");
    ("Honeybee_HVAC Cooling Details", None);
    ("Honeybee_OpenStudio to gbXML", Some "HB Dump gbXML");
    ("Honeybee_Set EP Air Flow", Some "HB Window Opening");
    ("Honeybee_Decompose EP Material", Some "HB Deconstruct Material");
    ("Honeybee_Import THERM XML", None);
    ("Honeybee_Separate Zones By Program", Some "HB Rooms by Attribute");
    ("Honeybee_Solve Adjacencies", Some "HB Solve Adjacency");
    ("Honeybee_Skylight Based on Ratio", Some "HB Skylights by Ratio");
    ("Honeybee_Get EnergyPlus Schedules", Some "HB Deconstruct ProgramType");
    ("Honeybee_Load OpenStudio Measure", Some "HB Load Measure");
    ("Honeybee_Select by Type", Some "HB Faces by Type");
    ("Honeybee_EnergyPlus Opaque Material", Some "HB Opaque Material");
    ("Honeybee_Set EP Zone Interior Construction",
     Some "HB Interior Construction Subset");
    ("Honeybee_Re-run IDF", Some "HB Run IDF");
    ("Honeybee_Run Daylight Simulation", None);
    ("Honeybee_Call from Radiance Library", Some "HB Search Modifiers");
    ("Honeybee_Radiance Trans Material", Some "HB Translucent Modifier");
    ("Honeybee_Add to EnergyPlus Library", Some "HB Dump Objects");
    ("Honeybee_createHBZones", Some "HB Room");
    ("Honeybee_Assembly Uvalue", Some "HB Deconstruct Construction");
    ("Honeybee_ChangeHBObjName", Some "HB Set Identifier");
    ("Honeybee_Glare Analysis", Some "HB Glare Postprocess");
    ("Honeybee_Radiance Opaque Material By Color",
     Some "HB Opaque Modifier 3");
    ("Honeybee_Daysim Occupancy Generator Based On List",
     Some "HB Fixed Interval Schedule");
    ("Honeybee_Read All the Hourly Results from Annual Daylight Study",
     Some "HB Annual Results to Data");
    ("Honeybee_Decompose Based On Type", Some "HB Faces by Type");
    ("Honeybee_Separate Zones By Orientation",
     Some "HB Rooms by Orientation");
    ("Honeybee_Radiance Materials Info", None);
    ("Honeybee_Read Annual Result I", Some "HB Annual Daylight Metrics");
    ("Honeybee_ListZonePrograms", Some "HB Search Programs");
    ("Honeybee_createHBSrfs", Some "HB Face");
    ("Honeybee_Energy Shade Benefit Evaluator",
     Some "HB Load Shade Benefit");
    ("Honeybee_Make Adiabatic", None);
    ("Honeybee_Set Exposure for HDR", Some "HB Adjust HDR");
    ("Honeybee_bldgPrograms", Some "HB Building Programs");
    ("Honeybee_Read Microclimate Matrix", Some "HB Read Thermal Matrix");
    ("Honeybee_Visualise_Honeybeegeneration_cashflow", None);
    ("Honeybee_HVAC Air Details", Some "HB All-Air HVAC");
    ("Honeybee_Read THERM Result", None);
    ("Honeybee_Extrude Windows", Some "HB Extruded Border Shades");
    ("Honeybee_Daysim Electrical Lighting Use",
     Some "HB Daylight Control Schedule");
    ("Honeybee_ExportEPC", None);
    ("Honeybee_Generate Dark Sky", Some "HB Certain Illuminance");
    ("Honeybee_Label Zones", Some "HB Label Rooms");
    ("Honeybee_Convert TIF to HDR", None);
    ("Honeybee_Balance Temperature Calculator",
     Some "HB Balance Temperature");
    ("Honeybee_Create Therm Polygons", None);
    ("Honeybee_Apply OpenStudio Measure", Some "HB Create OSM Measure");
    ("Honeybee_Label Zone Surfaces", Some "HB Label Faces");
    ("Honeybee_Radiance Mirror Material", Some "HB Mirror Modifier");
    ("Honeybee_Read Annual Result II", Some "HB Annual Daylight Metrics");
    ("Honeybee_Adaptive Comfort Analysis Recipe",
     Some "HB Adaptive Comfort Map");
    ("Honeybee_Honeybee", None);
    ("Honeybee_Separate Zones By Floor", Some "HB Rooms by Floor Height");
    ("Honeybee_Glazing based on ratio", Some "HB Apertures by Ratio");
    ("Honeybee_Refine Daylight Simulation", None);
    ("Honeybee_ShadowPar", Some "HB Shadow Calculation");
    ("Honeybee_Search EP Schedule Library", Some "HB Search Schedules");
    ("Honeybee_Daysim Shading State", Some "HB Dynamic State");
    ("Honeybee_Advanced Dynamic Shading Recipe",
     Some "HB Dynamic Aperture Group");
    ("Honeybee_Image Based Simulation", Some "HB Point-In-Time View-Based");
    ("Honeybee_DecomposeHBZone", Some "HB Deconstruct Object");
    ("Honeybee_FalseColor", Some "HB False Color");
    ("Honeybee_gbXML to Honeybee", Some "HB Load gbXML OSM IDF");
    ("Honeybee_Create Therm Boundaries", None);
    ("Honeybee_Matrix to Data Tree", Some "LB Deconstruct Matrix");
    ("Honeybee_HVACSystemsList", Some "HB All-Air HVAC Templates");
    ("Honeybee_Energy Simulation Par", Some "HB Simulation Parameter");
    ("Honeybee_Indoor View Factor Calculator", None);
    ("Honeybee_Daysim Occupancy Generator", Some "HB Weekly Schedule");
    ("Honeybee_Set EnergyPlus Zone Schedules",
     Some "HB Apply Room Schedules");
    ("Honeybee_Read EP Result", Some "HB Read Room Energy Result");
    ("Honeybee_Lookup EnergyPlus Folder", None);
    ("Honeybee_EnergyPlus Window Air Gap", Some "HB Window Gap Material");
    ("Honeybee_Import WINDOW IDF Report", None);
    ("Honeybee_Radiance Glass Material", Some "HB Glass Modifier");
    ("Honeybee_Annual Schedule", Some "HB Weekly Schedule");
    ("Honeybee_Watch The Sky", Some "HB Visualize Sky");
    ("Honeybee_Thermal Autonomy Analysis", None);
    ("Honeybee_Import rad", Some "HB Check Scene");
    ("Honeybee_Radiance Glass Material By Color",
     Some "HB Glass Modifier 3");
    ("Honeybee_EnergyPlus Window Material", Some "HB Window Material");
    ("Honeybee_Normalize Data by Floor Area",
     Some "HB Normalize by Floor Area");
    ("Honeybee_Color Surfaces by EP Result", Some "HB Color Faces");
    ("Honeybee_Load Honeybee Objects", Some "HB Load Objects");
    ("Honeybee_EnergyPlus Window Shade Generator", Some "HB Louver Shades");
    ("Honeybee_RADParameters", Some "HB Radiance Parameter");
    ("Honeybee_Generate Climate Based Sky", Some "HB Climatebased Sky");
    ("Honeybee_Create CSV Schedule", Some "HB Fixed Interval Schedule");
    ("Honeybee_Decompose EP Construction",
     Some "HB Deconstruct Construction");
    ("Honeybee_Surface Data Based On Type Detailed",
     Some "HB Face Result by Type");
    ("Honeybee_Rotate Honeybee", Some "HB Rotate");
    ("Honeybee_Set EnergyPlus Zone Loads", Some "HB Apply Load Values");
    ("Honeybee_Generate Zone Test Points", Some "HB Sensor Grid from Rooms");
    ("Honeybee_Import dgp File", Some "HB Glare Postprocess");
    ("Honeybee_Convert HDR to TIF", Some "HB HDR to GIF");
    ("Honeybee_Radiance Mirror Material By Color",
     Some "HB Mirror Modifier 3");
    ("Honeybee_Customize EnergyPlus Objects", None);
    ("Honeybee_Scale Honeybee", Some "HB Scale");
    ("Honeybee_Daysim Glare Control Recipe",
     Some "HB Aperture Group Schedule");
    ("Honeybee_Read Hourly Results from Annual Daylight Study",
     Some "HB Annual Average Values");
    ("Honeybee_Export To OpenStudio", Some "HB Model to OSM");
    ("Honeybee_Color Zones by EP Result", Some "HB Color Rooms");
    ("Honeybee_Daysim shading group sensors",
     Some "HB Aperture Group Schedule");
    ("Honeybee_Daylight Factor Simulation", Some "HB Daylight Factor");
    ("Honeybee_IES Luminaire Zone", None);
    ("Honeybee_Conceptual Dynamic Shading Recipe",
     Some "HB Automatic Aperture Group");
    ("Honeybee_Get EnergyPlus Loads", Some "HB Deconstruct ProgramType");
    ("Honeybee_Write THERM File", None);
    ("Honeybee_Remove Glazing", Some "HB Apertures by Ratio");
    ("Honeybee_Move Honeybee", Some "HB Move");
    ("Honeybee_EnergyPlus Shade Material", Some "HB Shade Material");
    ("Honeybee_Condensation calculator", None);
    ("Honeybee_Generate Custom Sky", Some "HB Custom Sky");
    ("Honeybee_Call from EP Schedule Library", Some "HB Search Schedules");
    ("Honeybee_Get Zone EnergyPlus Schedules",
     Some "HB Color Room Attributes");
    ("Honeybee_Update Honeybee", Some "LB Versioner");
    ("Honeybee_Make Adiabatic by Name", Some "HB Patch Missing Adjacency");
    ("Honeybee_HVAC Heating Details", None);
    ("Honeybee_Construct Energy Balance", Some "HB Thermal Load Balance");
    ("Honeybee_SplitFloor2ThermalZones", Some "HB Straight Skeleton");
    ("Honeybee_Read EP Surface Result", Some "HB Read Face Result");
    ("Honeybee_Import idf", Some "HB Load gbXML OSM IDF");
    ("Honeybee_Thermally Bridged EP Construction", None);
    ("Honeybee_Assign HVAC System", Some "HB DOAS HVAC");
    ("Honeybee_Convert HDR to GIF", Some "HB HDR to GIF");
    ("Honeybee_Glazing Parameters List", Some "HB Facade Parameters");
    ("Honeybee_Import Pts File", None);
    ("Honeybee_Create EP Ground", Some "HB Ground");
    ("Honeybee_Read EP Custom Result", Some "HB Read Custom Result");
    ("Honeybee_Convert EnergyPlus Schedule to Values",
     Some "HB Schedule to Data");
    ("Honeybee_Daysim Annual Profiles", Some "HB Annual Glare Metrics");
    ("Honeybee_Add Internal Mass to Zone", Some "HB Internal Mass");
    ("Honeybee_EnergyPlus NoMass Opaque Material",
     Some "HB Opaque Material No Mass");
    ("Honeybee_Set EP Zone Underground Construction",
     Some "HB Ground Construction Subset");
    ("Honeybee_Grid Based Simulation", Some "HB Point-In-Time Grid-Based");
    ("Honeybee_Simulation Control", Some "HB Simulation Control");
    ("Honeybee_Lighting control Recipe",
     Some "HB Daylight Control Schedule");
    ("Honeybee_Add to Radiance Library", Some "HB Dump Objects");
    ("Honeybee_Read Result Dictionary", Some "HB Read Result Dictionary") ].

End Legacy.

(** ** The layouts as the specification describes them *)

Module Layout.

Import FromObjects.

Section Blocks.

Context {number : Type} {arithmetic : Number number}.
Context {Mesh3D Arc2D LineSegment2D : Type}.

Local Notation "'Primitives'" :=
  (list (Primitive number Mesh3D Arc2D LineSegment2D)) (only parsing).

(** One Arc per circle, lifted to height [z]. *)
Definition arcs (z : number) (circles : list Arc2D) : Primitives :=
  map (fun circle => Arc circle z) circles.

(** One Line per tick, lifted to height [z]. *)
Definition lines (z : number) (ticks : list LineSegment2D)
  : Primitives :=
  map (fun line => LineSegment line z) ticks.

(** A Label on the plane centred on [pt] at height [z], with horizontal
    justification centre (1). *)
Definition label_on (z height : number) (font : string) (vertical : Z)
    (text : string) (pt : Point2D number)
  : Primitive number Mesh3D Arc2D LineSegment2D :=
  Label text (Plane_o (Point3D_xyz (x pt) (y pt) z)) height font
        (Some 1%Z) (Some vertical).

(** One Label per (key, point) pair, the text being [show key]. *)
Definition labels {K : Type} (show : K -> string) (z height : number)
    (font : string) (vertical : Z) (keys : list K)
    (pts : list (Point2D number))
  : Primitives :=
  map (fun '(key, pt) => label_on z height font vertical (show key) pt)
      (zip keys pts).

(** The justification table of the legend's segment labels. *)
Definition segment_justification (continuous_legend vertical : bool)
  : Z * Z :=
  match continuous_legend, vertical with
  | false, _ => (0, 5)
  | true, true => (0, 3)
  | true, false => (1, 5)
  end%Z.

(** The segment label of [txt] at [loc], as the legend's parameters and
    the justification table give it. *)
Definition segment_label (legend : Legend number Mesh3D) (txt : string)
    (loc : Plane number)
  : Primitive number Mesh3D Arc2D LineSegment2D :=
  let params := legend_parameters legend in
  let j := segment_justification (continuous_legend params)
                                 (vertical params) in
  Label txt loc (text_height params) (font params)
        (Some (fst j)) (Some (snd j)).

(** The same legend with other segment texts and locations. *)
Definition with_segments (legend : Legend number Mesh3D) (texts : list string)
    (locations : list (Plane number)) : Legend number Mesh3D :=
  {| legend_parameters := legend_parameters legend;
     segment_mesh := segment_mesh legend;
     title := title legend;
     title_location := title_location legend;
     segment_text := texts;
     segment_text_location := locations |}.

(** The same compass with other minor ticks, texts and points. *)
Definition with_minor (compass : Compass number Arc2D LineSegment2D)
    (ticks : list LineSegment2D) (texts : list string)
    (points : list (Point2D number))
  : Compass number Arc2D LineSegment2D :=
  {| radius := radius compass;
     all_boundary_circles := all_boundary_circles compass;
     major_azimuth_ticks := major_azimuth_ticks compass;
     MAJOR_TEXT := MAJOR_TEXT compass;
     major_azimuth_points := major_azimuth_points compass;
     minor_azimuth_ticks := ticks;
     MINOR_TEXT := texts;
     minor_azimuth_points := points;
     ALTITUDES := ALTITUDES compass;
     orthographic_altitude_circles := orthographic_altitude_circles compass;
     orthographic_altitude_points := orthographic_altitude_points compass;
     stereographic_altitude_circles :=
       stereographic_altitude_circles compass;
     stereographic_altitude_points := stereographic_altitude_points compass;
     ticks_from_angles := ticks_from_angles compass;
     label_points_from_angles := label_points_from_angles compass |}.

(** What [compass_objects] adds for the altitudes, by projection name. *)
Definition altitude_block (str : number -> string)
    (compass : Compass number Arc2D LineSegment2D) (z : number)
    (projection : option string) (font : string) : Primitives :=
  match projection with
  | None => []
  | Some name =>
      if String.eqb (Py.title name) "Orthographic" then
        arcs z (orthographic_altitude_circles compass)
        ++ labels str z (min_txt compass) font 0 (ALTITUDES compass)
                  (orthographic_altitude_points compass)
      else if String.eqb (Py.title name) "Stereographic" then
        arcs z (stereographic_altitude_circles compass)
        ++ labels str z (min_txt compass) font 0 (ALTITUDES compass)
                  (stereographic_altitude_points compass)
      else []
  end.

(** What [compass_objects] adds for the azimuths, by labelling mode. *)
Definition azimuth_block (str : number -> string)
    (compass : Compass number Arc2D LineSegment2D) (z : number)
    (custom_angles : option (list number)) (font : string) : Primitives :=
  match custom_angles with
  | None =>
      lines z (major_azimuth_ticks compass)
      ++ labels (fun txt => txt) z (maj_txt compass) font 3
                (MAJOR_TEXT compass) (major_azimuth_points compass)
      ++ lines z (minor_azimuth_ticks compass)
      ++ labels (fun txt => txt) z (min_txt compass) font 3
                (MINOR_TEXT compass) (minor_azimuth_points compass)
  | Some angles =>
      lines z (ticks_from_angles compass angles)
      ++ labels str z (maj_txt compass) font 3 angles
                (label_points_from_angles compass angles)
  end.


End Blocks.

(** The unit names of [conversion_factor] and their factors. *)
Definition unit_table : list (string * number) :=
  [ ("Meters", 1.0); ("Millimeters", 0.001); ("Feet", 0.305);
    ("Inches", 0.0254); ("Centimeters", 0.01) ].

End Layout.

(** ** Shapes of the results *)

Module Shape.

Import FromObjects.

(** [c in s] for a character [c]. *)
Fixpoint occurs (c : ascii) (s : string) : bool :=
  match s with
  | EmptyString => false
  | String c' s' => Ascii.eqb c' c || occurs c s'
  end.

Section Predicates.

Context {number : Type} {arithmetic : Number number}.
Context {Mesh3D Arc2D LineSegment2D : Type}.

(** What a primitive of a compass drawn at height [z] in font [face] may
    be: an Arc or a Line at that height, or a Label in that font, centred
    horizontally, aligned to the top or to the baseline, on the horizontal
    plane through a point of that height. *)
Definition compass_primitive (z : number) (face : string)
    (p : Primitive number Mesh3D Arc2D LineSegment2D) : Prop :=
  match p with
  | Mesh _ => False
  | Arc _ z' => z' = z
  | LineSegment _ z' => z' = z
  | Label _ plane _ f h v =>
      n plane = Point3D_xyz (of_int 0) (of_int 0) (of_int 1) /\
      (exists px py, o plane = Point3D_xyz px py z) /\
      f = face /\ h = Some 1%Z /\ (v = Some 3%Z \/ v = Some 0%Z)
  end.

(** A Label of the height and font of the legend parameters. *)
Definition legend_label (params : LegendParameters number)
    (p : Primitive number Mesh3D Arc2D LineSegment2D) : Prop :=
  match p with
  | Label _ _ h f _ _ => h = text_height params /\ f = font params
  | _ => False
  end.

End Predicates.

End Shape.

(** ** Sample objects, on which the statements below are exercised *)

Module Samples.

Import FromObjects Layout.

(** [str] on whole numbers. *)
Definition str_whole (a : number) : string :=
  NilZero.string_of_int (Z.to_int (Qnum a / Z.pos (Qden a))).

Definition pt (px py : number) : Point2D Q := {| x := px; y := py |}.

(** A compass of radius 100 with four major and two minor directions;
    arcs and line segments are stood for by their names. *)
Definition compass : Compass Q string string :=
  {| radius := 100;
     all_boundary_circles := ["outer"; "middle"; "inner"];
     major_azimuth_ticks := ["tick N"; "tick E"; "tick S"; "tick W"];
     MAJOR_TEXT := ["N"; "E"; "S"; "W"];
     major_azimuth_points := [pt 0 110; pt 110 0; pt 0 (-110); pt (-110) 0];
     minor_azimuth_ticks := ["tick NE"; "tick SW"];
     MINOR_TEXT := ["NE"; "SW"];
     minor_azimuth_points := [pt 78 78; pt (-78) (-78)];
     ALTITUDES := [30; 60]%Q;
     orthographic_altitude_circles := ["ortho 30"; "ortho 60"];
     orthographic_altitude_points := [pt 0 87; pt 0 50];
     stereographic_altitude_circles := ["stereo 30"; "stereo 60"];
     stereographic_altitude_points := [pt 0 58; pt 0 27];
     ticks_from_angles :=
       map (fun a => ("tick " ++ str_whole a)%string);
     label_points_from_angles := map (fun a => pt a 110) |}.

Definition plane_at (px py : number) : Plane Q :=
  Plane_o (Point3D_xyz px py 0).

(** A legend with three segment texts and one segment location. *)
Definition ragged_legend : Legend Q string :=
  {| legend_parameters :=
       {| text_height := 1; font := "Arial";
          continuous_legend := true; vertical := true |};
     segment_mesh := "mesh";
     title := "C";
     title_location := plane_at 0 4;
     segment_text := ["0"; "50"; "100"];
     segment_text_location := [plane_at 1 0] |}.

(** A legend with three segment texts and three segment locations. *)
Definition legend : Legend Q string :=
  with_segments ragged_legend ["0"; "50"; "100"]
                [plane_at 1 0; plane_at 1 1; plane_at 1 2].


End Samples.

Import FromObjects Config Layout Legacy Shape.

Local Close Scope Q_scope.

(** ** Facts about the run-time helpers *)

Lemma zip_length {A B : Type} (a : list A) (b : list B) :
  List.length (zip a b) = Nat.min (List.length a) (List.length b).
Proof.
  revert b; induction a as [|u a IH]; intros [|v b]; simpl; auto.
Qed.

Lemma zip_nth_error {A B : Type} (a : list A) (b : list B) (i : nat) u v :
  nth_error a i = Some u -> nth_error b i = Some v ->
  nth_error (zip a b) i = Some (u, v).
Proof.
  revert b i; induction a as [|a0 a IH]; intros [|b0 b] [|i]; simpl;
    try discriminate.
  - intros [= ->] [= ->]; reflexivity.
  - apply IH.
Qed.

(** A loop that appends one element per item leaves the earlier elements
    in place and adds the images in order. *)
Lemma for_in_append {A P : Type} (f : A -> P) (xs : list A) (init : list P) :
  for_in xs (fun result item => append result (f item)) init
  = init ++ map f xs.
Proof.
  unfold for_in, append; revert init.
  induction xs as [|item xs IH]; intro init; simpl.
  - now rewrite app_nil_r.
  - rewrite IH, <- app_assoc; reflexivity.
Qed.

Lemma for_in_append_pair {A B P : Type} (f : A -> B -> P)
    (ps : list (A * B)) (init : list P) :
  for_in ps (fun result '(u, v) => append result (f u v)) init
  = init ++ map (fun '(u, v) => f u v) ps.
Proof.
  unfold for_in, append; revert init.
  induction ps as [|[u v] ps IH]; intro init; simpl.
  - now rewrite app_nil_r.
  - rewrite IH, <- app_assoc; reflexivity.
Qed.

Lemma zip_firstn {A B : Type} (a : list A) (b : list B) :
  let m := Nat.min (List.length a) (List.length b) in
  zip (firstn m a) (firstn m b) = zip a b.
Proof.
  revert b; induction a as [|u a IH]; intros [|v b]; simpl; auto.
  f_equal; apply IH.
Qed.

(** Lower-casing a character: an upper-case letter becomes the lower-case
    letter whose upper case it is; any other character is unchanged. *)
Lemma tolower_cases (c : ascii) :
  (isupper c = true /\ islower c = false /\
   islower (tolower c) = true /\ toupper (tolower c) = c)
  \/ (isupper c = false /\ tolower c = c).
Proof.
  destruct c as [[] [] [] [] [] [] [] []];
    ((left; repeat split; reflexivity) || (right; split; reflexivity)).
Qed.

(** Title-casing does not look at the casing of its argument. *)
Lemma title_from_lower (s : string) :
  forall previous_is_cased,
    title_from previous_is_cased (lower s) = title_from previous_is_cased s.
Proof.
  induction s as [|c s IH]; intro b; simpl; [reflexivity|].
  destruct (tolower_cases c) as [(Hu & Hl & Hl' & Hup) | (Hu & Hc)].
  - rewrite Hl', Hl, Hu, Hup, IH; reflexivity.
  - rewrite !Hc, !IH, Hu; reflexivity.
Qed.

Lemma title_lower (s : string) : Py.title (lower s) = Py.title s.
Proof. apply title_from_lower. Qed.

Lemma conversion_factor_unfold (h : host) :
  conversion_factor h
  = let units := units_system h in
    if String.eqb units "Meters" then Returns 1.0%Q
    else if String.eqb units "Millimeters" then Returns 0.001%Q
    else if String.eqb units "Feet" then Returns 0.305%Q
    else if String.eqb units "Inches" then Returns 0.0254%Q
    else if String.eqb units "Centimeters" then Returns 0.01%Q
    else
      Raises (ValueError
        ("You're kidding me! What units are you using?" ++ units ++ "?"
         ++ newline
         ++ "Please use Meters, Millimeters, Centimeters, Feet or Inches.")).
Proof. destruct h; reflexivity. Qed.

(** ** [legend_objects] *)

Section LegendFacts.

Context {number : Type} {arithmetic : Number number}.
Context {Mesh3D Arc2D LineSegment2D : Type}.

Implicit Type legend : Legend number Mesh3D.

Local Notation "'legend_objects''" :=
  (@legend_objects number Mesh3D Arc2D LineSegment2D) (only parsing).

Lemma legend_objects_unfold legend :
  legend_objects' legend
  = Mesh (segment_mesh legend)
    :: Label (title legend) (title_location legend)
             (text_height (legend_parameters legend))
             (font (legend_parameters legend)) None None
    :: map (fun '(txt, loc) => segment_label legend txt loc)
           (zip (segment_text legend) (segment_text_location legend)).
Proof.
  unfold legend_objects, segment_label, from_mesh3d, text_objects.
  destruct (continuous_legend (legend_parameters legend)),
           (vertical (legend_parameters legend)); reflexivity.
Qed.

Lemma legend_objects_length legend :
  List.length (legend_objects' legend)
  = 2 + Nat.min (List.length (segment_text legend))
                (List.length (segment_text_location legend)).
Proof.
  rewrite legend_objects_unfold; simpl.
  now rewrite length_map, zip_length.
Qed.

Lemma legend_objects_segment legend (i : nat) txt loc :
  nth_error (segment_text legend) i = Some txt ->
  nth_error (segment_text_location legend) i = Some loc ->
  nth_error (legend_objects' legend) (2 + i)
  = Some (segment_label legend txt loc).
Proof.
  intros Ht Hl; rewrite legend_objects_unfold; simpl.
  rewrite nth_error_map, (zip_nth_error _ _ _ _ _ Ht Hl); reflexivity.
Qed.

Lemma nth_error_below {A : Type} (l : list A) (i : nat) :
  i < List.length l -> exists a, nth_error l i = Some a.
Proof.
  intro H; destruct (nth_error l i) as [a|] eqn:E; [now exists a|].
  apply nth_error_None in E; lia.
Qed.

(** C7.  A legend with [n] segment texts and [n] segment locations is
    translated into exactly [n + 2] primitives: the Mesh made from
    [segment_mesh] at index 0, the title Label at [title_location] at
    index 1, and at index [2 + i] the Label of segment text [i] at
    segment location [i]. *)
Theorem legend_objects_order legend (n : nat) :
  List.length (segment_text legend) = n ->
  List.length (segment_text_location legend) = n ->
  List.length (legend_objects' legend) = n + 2 /\
  nth_error (legend_objects' legend) 0 = Some (Mesh (segment_mesh legend)) /\
  nth_error (legend_objects' legend) 1
  = Some (Label (title legend) (title_location legend)
                (text_height (legend_parameters legend))
                (font (legend_parameters legend)) None None) /\
  forall i, i < n ->
    exists txt loc,
      nth_error (segment_text legend) i = Some txt /\
      nth_error (segment_text_location legend) i = Some loc /\
      nth_error (legend_objects' legend) (2 + i)
      = Some (segment_label legend txt loc).
Proof.
  intros Ht Hl; split; [|split; [|split]].
  - rewrite legend_objects_length, Ht, Hl; lia.
  - now rewrite legend_objects_unfold.
  - now rewrite legend_objects_unfold.
  - intros i Hi.
    destruct (nth_error_below (segment_text legend) i) as [txt Etxt];
      [lia|].
    destruct (nth_error_below (segment_text_location legend) i)
      as [loc Eloc]; [lia|].
    exists txt, loc; repeat split; trivial.
    now apply legend_objects_segment.
Qed.

(** C8.  Every segment label carries the justification codes that the
    table gives for [(continuous_legend, vertical)]; the table sends
    [(false, _)] to left(0)/middle(5), [(true, true)] to left(0)/top(3)
    and [(true, false)] to center(1)/middle(5), three different pairs that
    cover the four combinations. *)
Theorem legend_justification legend :
  Forall (fun p =>
            exists txt loc,
              p = Label txt loc (text_height (legend_parameters legend))
                        (font (legend_parameters legend))
                        (Some (fst (segment_justification
                            (continuous_legend (legend_parameters legend))
                            (vertical (legend_parameters legend)))))
                        (Some (snd (segment_justification
                            (continuous_legend (legend_parameters legend))
                            (vertical (legend_parameters legend))))))
         (skipn 2 (legend_objects' legend)) /\
  segment_justification false true = (0, 5)%Z /\
  segment_justification false false = (0, 5)%Z /\
  segment_justification true true = (0, 3)%Z /\
  segment_justification true false = (1, 5)%Z /\
  NoDup [(0, 5)%Z; (0, 3)%Z; (1, 5)%Z].
Proof.
  split.
  - rewrite legend_objects_unfold; simpl.
    apply Forall_forall; intros p Hp.
    apply in_map_iff in Hp as [[txt loc] [<- _]].
    now exists txt, loc.
  - repeat (split; [reflexivity|]).
    repeat constructor; simpl; intuition discriminate.
Qed.

(** C10.  When the segment texts and the segment locations differ in
    number, the legend is still translated: the result has
    [2 + min] primitives, where [min] is the smaller of the two numbers,
    index [2 + i] holds the Label of text [i] at location [i], and the
    result is the one of the legend cut to its first [min] texts and
    locations. *)
Theorem legend_objects_unequal legend :
  List.length (segment_text legend)
    <> List.length (segment_text_location legend) ->
  let m := Nat.min (List.length (segment_text legend))
                   (List.length (segment_text_location legend)) in
  List.length (legend_objects' legend) = 2 + m /\
  (forall i, i < m ->
     exists txt loc,
       nth_error (segment_text legend) i = Some txt /\
       nth_error (segment_text_location legend) i = Some loc /\
       nth_error (legend_objects' legend) (2 + i)
       = Some (segment_label legend txt loc)) /\
  legend_objects' legend
  = legend_objects'
      (with_segments legend (firstn m (segment_text legend))
                     (firstn m (segment_text_location legend))).
Proof.
  intros _ m; split; [|split].
  - apply legend_objects_length.
  - intros i Hi.
    destruct (nth_error_below (segment_text legend) i) as [txt Etxt];
      [lia|].
    destruct (nth_error_below (segment_text_location legend) i)
      as [loc Eloc]; [lia|].
    exists txt, loc; repeat split; trivial.
    now apply legend_objects_segment.
  - rewrite !legend_objects_unfold; simpl.
    unfold m; rewrite zip_firstn; reflexivity.
Qed.

End LegendFacts.

(** ** [compass_objects] *)

Section CompassFacts.

Context {number : Type} {arithmetic : Number number}.
Context {Mesh3D Arc2D LineSegment2D : Type} (str : number -> string).

Implicit Type compass : Compass number Arc2D LineSegment2D.

Local Notation "'compass_objects''" :=
  (@compass_objects number _ Mesh3D Arc2D LineSegment2D str) (only parsing).

(** The result is the boundary arcs, then the azimuth block, then the
    altitude block. *)
Lemma compass_objects_blocks compass z custom_angles projection font :
  compass_objects' compass z custom_angles projection font
  = arcs z (all_boundary_circles compass)
    ++ azimuth_block str compass z custom_angles font
    ++ altitude_block str compass z projection font.
Proof.
  unfold compass_objects, azimuth_block, altitude_block, arcs, lines, labels,
    label_on, from_arc2d, from_linesegment2d, text_objects.
  destruct custom_angles as [angles|], projection as [name|];
    repeat match goal with
           | |- context [String.eqb ?a ?b] => destruct (String.eqb a b)
           end;
    rewrite ?for_in_append, ?for_in_append_pair; simpl;
    rewrite <- ?app_assoc, ?app_nil_r; reflexivity.
Qed.

Lemma labels_length {K : Type} (show : K -> string) z h font v
    (keys : list K) (pts : list (Point2D number)) :
  List.length
    (@labels number _ Mesh3D Arc2D LineSegment2D K show z h font v keys pts)
  = Nat.min (List.length keys) (List.length pts).
Proof. unfold labels; now rewrite length_map, zip_length. Qed.

Lemma lines_length z (ticks : list LineSegment2D) :
  List.length (@lines number Mesh3D Arc2D LineSegment2D z ticks)
  = List.length ticks.
Proof. apply length_map. Qed.

Lemma arcs_length z (circles : list Arc2D) :
  List.length (@arcs number Mesh3D Arc2D LineSegment2D z circles)
  = List.length circles.
Proof. apply length_map. Qed.

(** With a projection name, the result is the result without one, followed
    by the altitude block. *)
Lemma compass_objects_projection compass z custom_angles name font :
  compass_objects' compass z custom_angles (Some name) font
  = compass_objects' compass z custom_angles None font
    ++ altitude_block str compass z (Some name) font.
Proof.
  rewrite !compass_objects_blocks; simpl.
  now rewrite app_nil_r, <- !app_assoc.
Qed.

(** C1.  In default mode without projection, a compass with 3 boundary
    circles, [major_count] major ticks, texts and points and [minor_count]
    minor ticks, texts and points is translated into
    [3 + 2 * major_count + 2 * minor_count] primitives: the 3 boundary
    Arcs, the major tick Lines, the major Labels of height [maj_txt]
    justified center(1)/top(3), the minor tick Lines and the minor Labels
    of height [min_txt] with the same justification, in this order. *)
Theorem compass_default_layout compass z font (major_count minor_count : nat) :
  List.length (all_boundary_circles compass) = 3 ->
  List.length (major_azimuth_ticks compass) = major_count ->
  List.length (MAJOR_TEXT compass) = major_count ->
  List.length (major_azimuth_points compass) = major_count ->
  List.length (minor_azimuth_ticks compass) = minor_count ->
  List.length (MINOR_TEXT compass) = minor_count ->
  List.length (minor_azimuth_points compass) = minor_count ->
  let boundary := arcs z (all_boundary_circles compass) in
  let major_ticks := lines z (major_azimuth_ticks compass) in
  let major_labels :=
    labels (fun txt => txt) z (maj_txt compass) font 3
           (MAJOR_TEXT compass) (major_azimuth_points compass) in
  let minor_ticks := lines z (minor_azimuth_ticks compass) in
  let minor_labels :=
    labels (fun txt => txt) z (min_txt compass) font 3
           (MINOR_TEXT compass) (minor_azimuth_points compass) in
  compass_objects' compass z None None font
  = boundary ++ major_ticks ++ major_labels ++ minor_ticks ++ minor_labels /\
  List.length (compass_objects' compass z None None font)
  = 3 + 2 * major_count + 2 * minor_count /\
  List.length boundary = 3 /\
  List.length major_ticks = major_count /\
  List.length major_labels = major_count /\
  List.length minor_ticks = minor_count /\
  List.length minor_labels = minor_count.
Proof.
  intros Hb HMt HMx HMp Hmt Hmx Hmp boundary major_ticks major_labels
         minor_ticks minor_labels.
  assert (Eb : List.length boundary = 3)
    by (unfold boundary; now rewrite arcs_length).
  assert (EMt : List.length major_ticks = major_count)
    by (unfold major_ticks; now rewrite lines_length).
  assert (EMl : List.length major_labels = major_count)
    by (unfold major_labels; rewrite labels_length; lia).
  assert (Emt : List.length minor_ticks = minor_count)
    by (unfold minor_ticks; now rewrite lines_length).
  assert (Eml : List.length minor_labels = minor_count)
    by (unfold minor_labels; rewrite labels_length; lia).
  assert (E : compass_objects' compass z None None font
              = boundary ++ major_ticks ++ major_labels
                ++ minor_ticks ++ minor_labels).
  { rewrite compass_objects_blocks; unfold azimuth_block, altitude_block.
    rewrite app_nil_r; reflexivity. }
  repeat (split; trivial).
  rewrite E, !length_app; lia.
Qed.

(** C2.  With custom angles [angles] of length [k], for which the compass
    gives [k] ticks and [k] label points, the azimuth block is [k] tick
    Lines from [ticks_from_angles] followed by [k] Labels, 2k primitives
    in all; Label [i] has the text [str] of angle [i], height [maj_txt]
    and justification center(1)/top(3).  The minor ticks, texts and
    points of the compass have no influence on the result. *)
Theorem compass_custom_layout compass z angles projection font (k : nat) :
  List.length angles = k ->
  List.length (ticks_from_angles compass angles) = k ->
  List.length (label_points_from_angles compass angles) = k ->
  let tick_lines := lines z (ticks_from_angles compass angles) in
  let angle_labels :=
    labels str z (maj_txt compass) font 3 angles
           (label_points_from_angles compass angles) in
  compass_objects' compass z (Some angles) projection font
  = arcs z (all_boundary_circles compass)
    ++ (tick_lines ++ angle_labels)
    ++ altitude_block str compass z projection font /\
  List.length tick_lines = k /\
  List.length angle_labels = k /\
  List.length (tick_lines ++ angle_labels) = 2 * k /\
  (forall i angle pt,
     nth_error angles i = Some angle ->
     nth_error (label_points_from_angles compass angles) i = Some pt ->
     nth_error angle_labels i
     = Some (Label (str angle) (Plane_o (Point3D_xyz (x pt) (y pt) z))
                   (maj_txt compass) font (Some 1%Z) (Some 3%Z))) /\
  (forall ticks texts points,
     compass_objects' (with_minor compass ticks texts points) z
                      (Some angles) projection font
     = compass_objects' compass z (Some angles) projection font).
Proof.
  intros Ha Ht Hp tick_lines angle_labels.
  assert (Et : List.length tick_lines = k)
    by (unfold tick_lines; now rewrite lines_length).
  assert (El : List.length angle_labels = k)
    by (unfold angle_labels; rewrite labels_length; lia).
  split; [|split; [|split; [|split; [|split]]]].
  - rewrite compass_objects_blocks; reflexivity.
  - exact Et.
  - exact El.
  - rewrite length_app; lia.
  - intros i angle pt Hi Hj; unfold angle_labels, labels.
    now rewrite nth_error_map, (zip_nth_error _ _ _ _ _ Hi Hj).
  - intros ticks texts points; rewrite !compass_objects_blocks.
    destruct projection as [name|]; reflexivity.
Qed.

(** C3.  When the title-cased projection name is [Orthographic], the
    result is the result without projection followed by one Arc per
    orthographic altitude circle at height [z] and then one Label per
    (altitude, orthographic altitude point) pair, with text [str altitude],
    height [min_txt] and justification center(1)/baseline(0); when it is
    [Stereographic], the same holds with the stereographic circles and
    points. *)
Theorem compass_altitude_layout compass z custom_angles name font :
  (Py.title name = "Orthographic" ->
   compass_objects' compass z custom_angles (Some name) font
   = compass_objects' compass z custom_angles None font
     ++ arcs z (orthographic_altitude_circles compass)
     ++ labels str z (min_txt compass) font 0 (ALTITUDES compass)
               (orthographic_altitude_points compass)) /\
  (Py.title name = "Stereographic" ->
   compass_objects' compass z custom_angles (Some name) font
   = compass_objects' compass z custom_angles None font
     ++ arcs z (stereographic_altitude_circles compass)
     ++ labels str z (min_txt compass) font 0 (ALTITUDES compass)
               (stereographic_altitude_points compass)).
Proof.
  split; intro H; rewrite compass_objects_projection;
    unfold altitude_block; rewrite H; reflexivity.
Qed.

(** C5.  A projection name whose title-cased form is neither
    [Orthographic] nor [Stereographic] changes nothing: the result is the
    one obtained without projection, and so is its length. *)
Theorem compass_unrecognized_projection compass z custom_angles name font :
  Py.title name <> "Orthographic" ->
  Py.title name <> "Stereographic" ->
  compass_objects' compass z custom_angles (Some name) font
  = compass_objects' compass z custom_angles None font /\
  List.length (compass_objects' compass z custom_angles (Some name) font)
  = List.length (compass_objects' compass z custom_angles None font).
Proof.
  intros Ho Hs.
  assert (E : compass_objects' compass z custom_angles (Some name) font
              = compass_objects' compass z custom_angles None font).
  { rewrite compass_objects_projection; unfold altitude_block.
    apply String.eqb_neq in Ho, Hs; rewrite Ho, Hs.
    apply app_nil_r. }
  split; [exact E | now rewrite E].
Qed.

(** C4.  Two projection names that differ in casing only have the same
    title-cased form and give the same result; every casing of
    [orthographic] is title-cased to [Orthographic] and every casing of
    [stereographic] to [Stereographic]. *)
Theorem compass_projection_casing compass z custom_angles font
    (name name' : string) :
  lower name = lower name' ->
  Py.title name = Py.title name' /\
  compass_objects' compass z custom_angles (Some name) font
  = compass_objects' compass z custom_angles (Some name') font /\
  (lower name = "orthographic" -> Py.title name = "Orthographic") /\
  (lower name = "stereographic" -> Py.title name = "Stereographic").
Proof.
  intro H.
  assert (E : Py.title name = Py.title name')
    by now rewrite <- (title_lower name), H, title_lower.
  split; [exact E | split; [|split]].
  - rewrite !compass_objects_projection; unfold altitude_block.
    now rewrite E.
  - intro Ho; rewrite <- title_lower, Ho; reflexivity.
  - intro Hs; rewrite <- title_lower, Hs; reflexivity.
Qed.





End CompassFacts.



(** ** [conversion_factor] *)

(** C9.  [conversion_factor] returns the factor that the table gives for
    the unit name (1.0 for Meters, 0.001 for Millimeters, 0.305 for Feet,
    0.0254 for Inches, 0.01 for Centimeters); it raises exactly when the
    unit name is not in the table; when [scriptcontext] cannot be imported
    the unit name is Meters and the factor 1.0. *)
Theorem conversion_factor_units (h : host) :
  (forall units factor,
     In (units, factor) unit_table ->
     units_system h = units ->
     conversion_factor h = Returns factor) /\
  (raises (conversion_factor h)
   <-> ~ In (units_system h) (map fst unit_table)) /\
  units_system ImportError = "Meters" /\
  conversion_factor ImportError = Returns 1.0%Q.
Proof.
  split; [|split; [|split; reflexivity]].
  - intros units factor Hin Hu; rewrite conversion_factor_unfold, Hu.
    simpl in Hin.
    repeat (destruct Hin as [[= <- <-] | Hin]; [reflexivity|]).
    contradiction.
  - rewrite conversion_factor_unfold; cbv zeta.
    repeat match goal with
           | |- context [String.eqb ?a ?b] =>
               let E := fresh "E" in
               destruct (String.eqb a b) eqn:E;
               [ apply String.eqb_eq in E | apply String.eqb_neq in E ]
           end;
      unfold raises; simpl; split;
      try (intros [e He]; discriminate He);
      try (intro Hn; exfalso; apply Hn; rewrite ?E, ?E0, ?E1, ?E2, ?E3;
           tauto).
    + intros _ Hin; intuition congruence.
    + intros _; eexists; reflexivity.
Qed.

(** ** The statements on the sample objects *)

Lemma legend_objects_order_sample :
  List.length (@legend_objects _ _ unit unit Samples.legend) = 3 + 2 /\
  nth_error (@legend_objects _ _ unit unit Samples.legend) 0
  = Some (Mesh "mesh").
Proof.
  pose proof (@legend_objects_order _ _ unit unit Samples.legend 3
                eq_refl eq_refl) as (Hlen & Hmesh & _).
  split; [exact Hlen | exact Hmesh].
Defined.

Lemma legend_objects_unequal_sample :
  List.length (@legend_objects _ _ unit unit Samples.ragged_legend) = 2 + 1.
Proof.
  assert (Hne : List.length (segment_text Samples.ragged_legend)
                <> List.length (segment_text_location Samples.ragged_legend))
    by (simpl; lia).
  exact (proj1 (@legend_objects_unequal _ _ unit unit Samples.ragged_legend
                  Hne)).
Defined.

Lemma compass_default_layout_sample :
  List.length (@compass_objects _ _ unit _ _ Samples.str_whole
                 Samples.compass 0%Q None None "Arial")
  = 3 + 2 * 4 + 2 * 2.
Proof.
  exact (proj1 (proj2
    (@compass_default_layout _ _ unit _ _ Samples.str_whole Samples.compass
       0%Q "Arial" 4 2 eq_refl eq_refl eq_refl eq_refl eq_refl eq_refl
       eq_refl))).
Defined.

Lemma compass_custom_layout_sample :
  @compass_objects _ _ unit _ _ Samples.str_whole Samples.compass 0%Q
    (Some [0; 45; 90]%Q) None "Arial"
  = arcs 0%Q ["outer"; "middle"; "inner"]
    ++ (lines 0%Q ["tick 0"; "tick 45"; "tick 90"]
        ++ labels Samples.str_whole 0%Q (100 / 20)%Q "Arial" 3
             [0; 45; 90]%Q
             [Samples.pt 0 110; Samples.pt 45 110; Samples.pt 90 110]%Q)
    ++ [].
Proof.
  exact (proj1
    (@compass_custom_layout _ _ unit _ _ Samples.str_whole Samples.compass
       0%Q [0; 45; 90]%Q None "Arial" 3 eq_refl eq_refl eq_refl)).
Defined.

Lemma compass_altitude_layout_sample :
  List.length (@compass_objects _ _ unit _ _ Samples.str_whole Samples.compass
                 0%Q None (Some "orthographic") "Arial")
  = 15 + 2 + 2 /\
  List.length (@compass_objects _ _ unit _ _ Samples.str_whole Samples.compass
                 0%Q None (Some "STEREOGRAPHIC") "Arial")
  = 15 + 2 + 2.
Proof.
  split.
  - rewrite (proj1 (@compass_altitude_layout _ _ unit _ _ Samples.str_whole
                      Samples.compass 0%Q None "orthographic" "Arial")
               eq_refl).
    reflexivity.
  - rewrite (proj2 (@compass_altitude_layout _ _ unit _ _ Samples.str_whole
                      Samples.compass 0%Q None "STEREOGRAPHIC" "Arial")
               eq_refl).
    reflexivity.
Defined.

Lemma compass_projection_casing_sample :
  @compass_objects _ _ unit _ _ Samples.str_whole Samples.compass 0%Q None
    (Some "orthographic") "Arial"
  = @compass_objects _ _ unit _ _ Samples.str_whole Samples.compass 0%Q None
      (Some "ORTHOGRAPHIC") "Arial" /\
  Py.title "oRTHOGRAPHIC" = "Orthographic".
Proof.
  split.
  - exact (proj1 (proj2
      (@compass_projection_casing _ _ unit _ _ Samples.str_whole Samples.compass
         0%Q None "Arial" "orthographic" "ORTHOGRAPHIC" eq_refl))).
  - exact (proj1 (proj2 (proj2
      (@compass_projection_casing _ _ unit _ _ Samples.str_whole Samples.compass
         0%Q None "Arial" "oRTHOGRAPHIC" "orthographic" eq_refl)))
      eq_refl).
Defined.

Lemma compass_unrecognized_projection_sample :
  List.length (@compass_objects _ _ unit _ _ Samples.str_whole Samples.compass
                 0%Q None (Some "Unknown") "Arial")
  = List.length (@compass_objects _ _ unit _ _ Samples.str_whole Samples.compass
                   0%Q None None "Arial").
Proof.
  assert (Ho : Py.title "Unknown" <> "Orthographic") by discriminate.
  assert (Hs : Py.title "Unknown" <> "Stereographic") by discriminate.
  exact (proj2
    (@compass_unrecognized_projection _ _ unit _ _ Samples.str_whole
       Samples.compass 0%Q None "Unknown" "Arial" Ho Hs)).
Defined.

Lemma conversion_factor_units_sample :
  conversion_factor (scriptcontext "Rhino.UnitSystem.Feet")
  = Returns 0.305%Q /\
  raises (conversion_factor (scriptcontext "Furlongs")).
Proof.
  split.
  - apply (proj1 (conversion_factor_units
                    (scriptcontext "Rhino.UnitSystem.Feet")) "Feet").
    + simpl; tauto.
    + reflexivity.
  - apply (proj1 (proj2 (conversion_factor_units (scriptcontext "Furlongs")))).
    simpl; intuition discriminate.
Defined.

(** ** Further facts about [legend_objects] *)

Lemma zip_app {A B : Type} (a a' : list A) (b b' : list B) :
  List.length a = List.length b ->
  zip (a ++ a') (b ++ b') = zip a b ++ zip a' b'.
Proof.
  revert b; induction a as [|u a IH]; intros [|v b] H; simpl in *;
    try discriminate; [reflexivity|].
  f_equal; apply IH; lia.
Qed.

Section LegendShape.

Context {number : Type} {arithmetic : Number number}.
Context {Mesh3D Arc2D LineSegment2D : Type}.

Implicit Type legend : Legend number Mesh3D.

Local Notation "'legend_objects''" :=
  (@legend_objects number Mesh3D Arc2D LineSegment2D) (only parsing).

(** X1.  The result of [legend_objects] starts with the one Mesh and goes
    on with Labels only, at least one, all of the text height and the font
    of the legend parameters. *)
Theorem legend_objects_kinds legend :
  exists title_label segment_labels,
    legend_objects' legend
    = Mesh (segment_mesh legend) :: title_label :: segment_labels /\
    Forall (legend_label (legend_parameters legend))
           (title_label :: segment_labels).
Proof.
  rewrite legend_objects_unfold.
  eexists; eexists; split; [reflexivity|].
  constructor; [split; reflexivity|].
  apply Forall_forall; intros p Hp.
  apply in_map_iff in Hp as [[txt loc] [<- _]]; split; reflexivity.
Qed.

(** X2.  When a legend has as many segment texts as segment locations,
    one more text with its location adds one Label at the end of the
    result and leaves the rest as it is. *)
Theorem legend_objects_append legend (txt : string) (loc : Plane number) :
  List.length (segment_text legend)
  = List.length (segment_text_location legend) ->
  legend_objects'
    (with_segments legend (segment_text legend ++ [txt])
                   (segment_text_location legend ++ [loc]))
  = legend_objects' legend ++ [segment_label legend txt loc].
Proof.
  intro H; rewrite !legend_objects_unfold; simpl.
  rewrite (zip_app _ _ _ _ H), map_app; reflexivity.
Qed.

End LegendShape.

Lemma legend_objects_append_sample :
  List.length
    (@legend_objects _ _ unit unit
       (with_segments Samples.legend
          (segment_text Samples.legend ++ ["150"])
          (segment_text_location Samples.legend
           ++ [Samples.plane_at 1 3]%Q)))
  = 6.
Proof.
  rewrite (@legend_objects_append _ _ unit unit Samples.legend "150"
             (Samples.plane_at 1 3)%Q eq_refl).
  reflexivity.
Defined.

(** ** Further facts about [compass_objects] *)

Lemma firstn_length_app {A : Type} (l l' : list A) :
  firstn (List.length l) (l ++ l') = l.
Proof. induction l as [|a l IH]; simpl; [reflexivity | now rewrite IH]. Qed.

(** Lower-casing undoes what title-casing does to the letters. *)
Lemma tolower_idem (c : ascii) :
  tolower (tolower c) = tolower c /\ tolower (toupper c) = tolower c.
Proof.
  destruct c as [[] [] [] [] [] [] [] []]; split; reflexivity.
Qed.

Lemma lower_title_from (s : string) :
  forall previous_is_cased,
    lower (title_from previous_is_cased s) = lower s.
Proof.
  induction s as [|c s IH]; intro b; simpl; [reflexivity|].
  destruct (tolower_idem c) as [Hl Hu].
  destruct (islower c); [|destruct (isupper c)];
    destruct b; simpl; rewrite ?Hl, ?Hu, IH; reflexivity.
Qed.

(** Comparing the title-cased name with a name that is its own title case
    is comparing the lower-cased names. *)
Lemma title_eqb_lower (name canon : string) :
  Py.title canon = canon ->
  String.eqb (Py.title name) canon = String.eqb (lower name) (lower canon).
Proof.
  intro Hc.
  destruct (String.eqb (lower name) (lower canon)) eqn:E.
  - apply String.eqb_eq in E; apply String.eqb_eq.
    now rewrite <- (title_lower name), E, title_lower.
  - apply String.eqb_neq in E; apply String.eqb_neq; intro H; apply E.
    rewrite <- H; symmetry; apply lower_title_from.
Qed.

Section CompassShape.

Context {number : Type} {arithmetic : Number number}.
Context {Mesh3D Arc2D LineSegment2D : Type} (str : number -> string).

Implicit Type compass : Compass number Arc2D LineSegment2D.

Local Notation "'compass_objects''" :=
  (@compass_objects number _ Mesh3D Arc2D LineSegment2D str) (only parsing).

(** X3.  The number of primitives of a compass, whatever the lengths of
    its sequences: every circle and tick counts once, and a text counts
    only as far as it has a point and a point only as far as it has a
    text. *)
Theorem compass_objects_length compass z custom_angles projection font :
  List.length (compass_objects' compass z custom_angles projection font)
  = List.length (all_boundary_circles compass)
    + match custom_angles with
      | None =>
          List.length (major_azimuth_ticks compass)
          + Nat.min (List.length (MAJOR_TEXT compass))
                    (List.length (major_azimuth_points compass))
          + List.length (minor_azimuth_ticks compass)
          + Nat.min (List.length (MINOR_TEXT compass))
                    (List.length (minor_azimuth_points compass))
      | Some angles =>
          List.length (ticks_from_angles compass angles)
          + Nat.min (List.length angles)
                    (List.length (label_points_from_angles compass angles))
      end
    + match projection with
      | None => 0
      | Some name =>
          if String.eqb (Py.title name) "Orthographic" then
            List.length (orthographic_altitude_circles compass)
            + Nat.min (List.length (ALTITUDES compass))
                      (List.length (orthographic_altitude_points compass))
          else if String.eqb (Py.title name) "Stereographic" then
            List.length (stereographic_altitude_circles compass)
            + Nat.min (List.length (ALTITUDES compass))
                      (List.length (stereographic_altitude_points compass))
          else 0
      end.
Proof.
  rewrite compass_objects_blocks, !length_app, arcs_length.
  unfold azimuth_block, altitude_block.
  destruct custom_angles as [angles|], projection as [name|];
    repeat match goal with
           | |- context [String.eqb ?a ?b] => destruct (String.eqb a b)
           end;
    rewrite ?length_app, ?arcs_length, ?lines_length, ?labels_length;
    simpl; lia.
Qed.

(** X4.  Whatever the azimuth mode and the projection, the result starts
    with the boundary Arcs; and a projection only adds at the end: the
    result without projection is the start of the result with it. *)
Theorem compass_objects_prefix compass z custom_angles projection font :
  firstn (List.length (all_boundary_circles compass))
         (compass_objects' compass z custom_angles projection font)
  = arcs z (all_boundary_circles compass) /\
  firstn (List.length (compass_objects' compass z custom_angles None font))
         (compass_objects' compass z custom_angles projection font)
  = compass_objects' compass z custom_angles None font.
Proof.
  split.
  - rewrite compass_objects_blocks.
    rewrite <- (@arcs_length number Mesh3D Arc2D LineSegment2D z
                  (all_boundary_circles compass)).
    apply firstn_length_app.
  - destruct projection as [name|].
    + rewrite (compass_objects_projection str compass z custom_angles name).
      apply firstn_length_app.
    + apply firstn_all.
Qed.

(** X5.  For a projection name of ASCII characters the projection is
    chosen by the lower-cased name alone: the orthographic circles and
    labels are added exactly for the names whose lower case is
    [orthographic], the stereographic ones exactly for those whose lower
    case is [stereographic], and nothing is added for any other such
    name. *)
Theorem compass_projection_by_lower compass z custom_angles name font :
  isascii name = true ->
  compass_objects' compass z custom_angles (Some name) font
  = compass_objects' compass z custom_angles None font
    ++ (if String.eqb (lower name) "orthographic" then
          arcs z (orthographic_altitude_circles compass)
          ++ labels str z (min_txt compass) font 0 (ALTITUDES compass)
                    (orthographic_altitude_points compass)
        else if String.eqb (lower name) "stereographic" then
          arcs z (stereographic_altitude_circles compass)
          ++ labels str z (min_txt compass) font 0 (ALTITUDES compass)
                    (stereographic_altitude_points compass)
        else []).
Proof.
  intros _; rewrite compass_objects_projection; unfold altitude_block.
  rewrite (title_eqb_lower name "Orthographic" eq_refl).
  rewrite (title_eqb_lower name "Stereographic" eq_refl).
  reflexivity.
Qed.

Lemma arcs_compass_primitive z font (circles : list Arc2D) :
  Forall (compass_primitive z font)
         (@arcs number Mesh3D Arc2D LineSegment2D z circles).
Proof.
  unfold arcs; apply Forall_forall; intros p Hp.
  apply in_map_iff in Hp as [circle [<- _]]; reflexivity.
Qed.

Lemma lines_compass_primitive z font (ticks : list LineSegment2D) :
  Forall (compass_primitive z font)
         (@lines number Mesh3D Arc2D LineSegment2D z ticks).
Proof.
  unfold lines; apply Forall_forall; intros p Hp.
  apply in_map_iff in Hp as [line [<- _]]; reflexivity.
Qed.

Lemma labels_compass_primitive {K : Type} (show : K -> string) z h font
    (v : Z) (keys : list K) (pts : list (Point2D number)) :
  v = 3%Z \/ v = 0%Z ->
  Forall (compass_primitive z font)
         (@labels number _ Mesh3D Arc2D LineSegment2D K show z h font v
            keys pts).
Proof.
  intro Hv; unfold labels; apply Forall_forall; intros p Hp.
  apply in_map_iff in Hp as [[key pt] [<- _]]; simpl.
  repeat split; eauto.
  destruct Hv as [-> | ->]; auto.
Qed.

(** X6.  Every primitive of a compass is an Arc or a Line at the height
    [z], or a Label in the given font, centred horizontally and aligned to
    the top or the baseline, on the horizontal plane through a point of
    height [z]; there is no Mesh. *)
Theorem compass_objects_uniform compass z custom_angles projection font :
  Forall (compass_primitive z font)
         (compass_objects' compass z custom_angles projection font).
Proof.
  rewrite compass_objects_blocks.
  unfold azimuth_block, altitude_block.
  destruct custom_angles as [angles|], projection as [name|];
    repeat match goal with
           | |- context [String.eqb ?a ?b] => destruct (String.eqb a b)
           end;
    repeat first
      [ apply Forall_app; split
      | apply arcs_compass_primitive
      | apply lines_compass_primitive
      | apply labels_compass_primitive; auto
      | apply Forall_nil ].
Qed.

(** X7.  An empty list of custom angles is not the default mode: when the
    compass has no tick for no angle, the result is the boundary Arcs
    followed by what the projection adds, without any azimuth tick or
    label. *)
Theorem compass_custom_empty compass z projection font :
  ticks_from_angles compass [] = [] ->
  compass_objects' compass z (Some []) projection font
  = arcs z (all_boundary_circles compass)
    ++ altitude_block str compass z projection font.
Proof.
  intro H; rewrite compass_objects_blocks.
  unfold azimuth_block; rewrite H; reflexivity.
Qed.

End CompassShape.

Lemma compass_projection_by_lower_sample :
  List.length (@compass_objects _ _ unit _ _ Samples.str_whole
                 Samples.compass 0%Q None (Some "sTEREOgraphic") "Arial")
  = 15 + 4 /\
  @compass_objects _ _ unit _ _ Samples.str_whole Samples.compass 0%Q None
    (Some " orthographic") "Arial"
  = @compass_objects _ _ unit _ _ Samples.str_whole Samples.compass 0%Q None
      None "Arial".
Proof.
  split.
  - rewrite (@compass_projection_by_lower _ _ unit _ _ Samples.str_whole
               Samples.compass 0%Q None "sTEREOgraphic" "Arial" eq_refl).
    reflexivity.
  - rewrite (@compass_projection_by_lower _ _ unit _ _ Samples.str_whole
               Samples.compass 0%Q None " orthographic" "Arial" eq_refl).
    apply app_nil_r.
Defined.

Lemma compass_custom_empty_sample :
  @compass_objects _ _ unit _ _ Samples.str_whole Samples.compass 0%Q
    (Some []) None "Arial"
  = [Arc "outer" 0%Q; Arc "middle" 0%Q; Arc "inner" 0%Q].
Proof.
  exact (@compass_custom_empty _ _ unit _ _ Samples.str_whole Samples.compass
           0%Q None "Arial" eq_refl).
Defined.

(** ** Further facts about [units_system] and [conversion_factor] *)

Lemma split_cons (sep : ascii) (s : string) :
  exists seg rest, split sep s = seg :: rest.
Proof.
  induction s as [|c s [seg [rest IH]]]; simpl; [now eexists; eexists|].
  destruct (Ascii.eqb c sep); [now eexists; eexists|].
  rewrite IH; now eexists; eexists.
Qed.

(** Splitting a text that has a separator between [before] and [after]
    gives the pieces of [before] followed by the pieces of [after]. *)
Lemma split_app_sep (sep : ascii) (before after : string) :
  split sep (before ++ String sep after)
  = split sep before ++ split sep after.
Proof.
  induction before as [|c before IH]; simpl.
  - now rewrite Ascii.eqb_refl.
  - destruct (Ascii.eqb c sep); [now rewrite IH|].
    rewrite IH.
    destruct (split_cons sep before) as [seg [rest ->]]; reflexivity.
Qed.

Lemma last_item_app (l l' : list string) :
  l' <> [] -> last_item (l ++ l') = last_item l'.
Proof.
  unfold last_item; intro H; induction l as [|a l IH]; simpl; [reflexivity|].
  destruct (l ++ l') eqn:E; [|exact IH].
  apply app_eq_nil in E as [_ E]; contradiction.
Qed.

Lemma split_without_sep (sep : ascii) (s : string) :
  occurs sep s = false -> split sep s = [s].
Proof.
  induction s as [|c s IH]; simpl; [reflexivity|].
  intro H; apply orb_false_iff in H as [Hc Hs].
  now rewrite Hc, (IH Hs).
Qed.

Lemma split_pieces (sep : ascii) (s : string) :
  Forall (fun seg => occurs sep seg = false) (split sep s).
Proof.
  induction s as [|c s IH]; simpl; [repeat constructor|].
  destruct (Ascii.eqb c sep) eqn:E; [constructor; [reflexivity | exact IH]|].
  destruct (split sep s) as [|seg rest]; [repeat constructor; simpl|].
  - now rewrite E.
  - inversion IH; subst; constructor; trivial; simpl.
    now rewrite E.
Qed.

Lemma last_item_pieces (P : string -> Prop) (l : list string) :
  l <> [] -> Forall P l -> P (last_item l).
Proof.
  unfold last_item; induction l as [|a l IH]; [contradiction|].
  intros _ H; inversion H; subst; simpl.
  destruct l as [|b l]; [assumption|].
  apply IH; [discriminate | assumption].
Qed.

(** X8.  Of a qualified name [prefix.name], where [name] has no dot, only
    [name] counts: it is the unit system, and the conversion factor is the
    one of [name] alone. *)
Theorem units_system_qualified (prefix name : string) :
  occurs "." name = false ->
  units_system (scriptcontext (prefix ++ String "." name)) = name /\
  units_system (scriptcontext name) = name /\
  conversion_factor (scriptcontext (prefix ++ String "." name))
  = conversion_factor (scriptcontext name).
Proof.
  intro H.
  assert (E1 : units_system (scriptcontext name) = name)
    by (simpl; now rewrite (split_without_sep _ _ H)).
  assert (E2 : units_system (scriptcontext (prefix ++ String "." name))
               = name).
  { simpl; rewrite split_app_sep, last_item_app.
    - now rewrite (split_without_sep _ _ H).
    - now rewrite (split_without_sep _ _ H). }
  repeat split; trivial.
  rewrite !conversion_factor_unfold, E1, E2; reflexivity.
Qed.

(** X9.  The unit system never has a dot in it, whatever the document
    gives. *)
Theorem units_system_no_dot (h : host) :
  occurs "." (units_system h) = false.
Proof.
  destruct h as [|s]; [reflexivity|]; simpl.
  apply (last_item_pieces (fun seg => occurs "." seg = false)).
  - destruct (split_cons "." s) as [seg [rest ->]]; discriminate.
  - apply split_pieces.
Qed.

(** X10.  A conversion factor that is returned is positive and at most 1,
    and it is below 1 unless the unit system is Meters. *)
Theorem conversion_factor_range (h : host) (factor : number) :
  conversion_factor h = Returns factor ->
  (0 < factor)%Q /\ (factor <= 1)%Q /\
  (units_system h <> "Meters" -> (factor < 1)%Q).
Proof.
  rewrite conversion_factor_unfold; cbv zeta.
  destruct (String.eqb (units_system h) "Meters") eqn:E;
    [ apply String.eqb_eq in E; intros [= <-];
      repeat split; try discriminate; intro Hn; contradiction |].
  repeat match goal with
         | |- context [String.eqb ?a ?b] => destruct (String.eqb a b)
         end;
    try discriminate; intros [= <-]; repeat split; discriminate.
Qed.

Lemma units_system_qualified_sample :
  units_system (scriptcontext "Rhino.UnitSystem.Feet") = "Feet".
Proof.
  exact (proj1 (units_system_qualified "Rhino.UnitSystem" "Feet" eq_refl)).
Defined.

Lemma conversion_factor_range_sample : (0 < 0.0254)%Q /\ (0.0254 <= 1)%Q.
Proof.
  destruct (conversion_factor_range (scriptcontext "Inches") 0.0254%Q eq_refl)
    as (Hpos & Hle & _).
  split; [exact Hpos | exact Hle].
Defined.

(** ** Facts about the tables of legacy component names *)

Lemma binds_getitem (d : display) (entry : string * option string) :
  binds d entry = true -> getitem d (fst entry) = Some (snd entry).
Proof.
  unfold binds; destruct (getitem d (fst entry)) as [[v|]|], (snd entry);
    try discriminate; [|reflexivity].
  intro H; apply String.eqb_eq in H; now subst.
Qed.

Lemma getitem_in (d : display) (key : string) (v : option string) :
  getitem d key = Some v -> In (key, v) d.
Proof.
  induction d as [|[k w] d IH]; simpl; [discriminate|].
  destruct (getitem d key) as [v'|].
  - intros [= ->]; right; now apply IH.
  - destruct (String.eqb k key) eqn:E; [|discriminate].
    apply String.eqb_eq in E; intros [= ->]; left; now subst.
Qed.

Lemma effective_entries (d : display) :
  forallb (binds d) d = true ->
  Forall (fun entry => getitem d (fst entry) = Some (snd entry)) d.
Proof.
  intro H; apply Forall_forall; intros entry Hin.
  apply binds_getitem.
  exact (proj1 (forallb_forall (binds d) d) H entry Hin).
Qed.

Lemma keys_start_with (prefix : string) (d : display) :
  forallb (fun entry => startswith (fst entry) prefix) d = true ->
  forall key, contains d key = true -> startswith key prefix = true.
Proof.
  intros H key Hc; unfold contains in Hc.
  destruct (getitem d key) as [v|] eqn:E; [|discriminate].
  apply getitem_in in E.
  exact (proj1 (forallb_forall _ d) H (key, v) E).
Qed.

Lemma startswith_head (a b : ascii) (prefix s : string) :
  startswith (String b s) (String a prefix) = true -> a = b.
Proof.
  unfold startswith; cbn [String.prefix].
  destruct (ascii_dec a b); [trivial | discriminate].
Qed.

Lemma distinct_NoDup (keys : list string) :
  distinct keys = true -> NoDup keys.
Proof.
  induction keys as [|key rest IH]; simpl; intro H; constructor.
  - apply andb_true_iff in H as [H _]; intro Hin.
    apply negb_true_iff in H.
    assert (E : existsb (String.eqb key) rest = true)
      by (apply existsb_exists; exists key; split;
          [exact Hin | apply String.eqb_refl]).
    congruence.
  - apply IH; apply andb_true_iff in H as [_ H]; exact H.
Qed.

(** X11.  In both displays no key is written twice, and every entry is in
    force: looking up its key gives its value. *)
Theorem legacy_entries_in_force :
  NoDup (map fst LADYBUG_MAP) /\
  NoDup (map fst HONEYBEE_MAP) /\
  Forall (fun entry => getitem LADYBUG_MAP (fst entry) = Some (snd entry))
         LADYBUG_MAP /\
  Forall (fun entry => getitem HONEYBEE_MAP (fst entry) = Some (snd entry))
         HONEYBEE_MAP.
Proof.
  split; [|split; [|split]];
    try (apply distinct_NoDup; vm_compute; reflexivity);
    apply effective_entries; vm_compute; reflexivity.
Qed.

(** X12.  Every key of [LADYBUG_MAP] starts with [Ladybug_] and every key
    of [HONEYBEE_MAP] with [Honeybee]; hence no name is a key of both
    tables. *)
Theorem legacy_keys_apart (key : string) :
  (contains LADYBUG_MAP key = true -> startswith key "Ladybug_" = true) /\
  (contains HONEYBEE_MAP key = true -> startswith key "Honeybee" = true) /\
  contains LADYBUG_MAP key && contains HONEYBEE_MAP key = false.
Proof.
  assert (HL : contains LADYBUG_MAP key = true
               -> startswith key "Ladybug_" = true)
    by (apply keys_start_with; vm_compute; reflexivity).
  assert (HH : contains HONEYBEE_MAP key = true
               -> startswith key "Honeybee" = true)
    by (apply keys_start_with; vm_compute; reflexivity).
  repeat split; trivial.
  destruct (contains LADYBUG_MAP key); [|reflexivity].
  destruct (contains HONEYBEE_MAP key); [|reflexivity].
  specialize (HL eq_refl); specialize (HH eq_refl).
  destruct key as [|c key]; [discriminate|].
  apply startswith_head in HL, HH; congruence.
Qed.

Lemma legacy_keys_apart_sample :
  startswith "Ladybug_Wind Rose" "Ladybug_" = true /\
  contains HONEYBEE_MAP "Ladybug_Wind Rose" = false.
Proof.
  destruct (legacy_keys_apart "Ladybug_Wind Rose") as (HL & _ & Hboth).
  split; [exact (HL eq_refl) | exact Hboth].
Defined.
